(** * homework.py: the polling loop of the homework-status Telegram bot

    A shallow embedding of [src/homework.py].  The values the program
    handles are what [response.json()] can produce, so they are modelled
    as an untyped tree of Python objects; the functions that raise are
    modelled in an error monad, and [main]'s loop in a monad that threads
    the loop variables, the trace of observable events and the pending
    exception. *)

From Stdlib Require Import String Ascii List ZArith Bool Lia DecimalString.
From Stdlib Require Import Floats.PrimFloat.
Import ListNotations.
Open Scope string_scope.

(** ** Python values *)

Module Py.

(** What [json.loads] builds: [None], [bool], [int], [float], [str],
    [list] and [dict] with [str] keys.  A [dict] is kept as its items in
    insertion order; a real dict has no repeated key and none of the
    definitions below depends on it (lookup takes the first match). *)
#[warnings="-register-all"]
Inductive pyval : Type :=
| PyNone
| PyBool (b : bool)
| PyInt (z : Z)
| PyFloat (x : float)
| PyStr (s : string)
| PyList (items : list pyval)
| PyDict (items : list (string * pyval)).

(** Built-in exception classes the program raises or provokes, and one
    constructor for the classes of the libraries ([requests], [telegram]);
    every one of them derives from [Exception]. *)
Inductive exc_class : Type :=
| TypeError
| KeyError
| ValueError
| ConnectionError
| AttributeError
| LibraryError (qualname : string).

Record exn : Type := mkExn { exc_type : exc_class; exc_arg : string }.

Inductive result (A : Type) : Type :=
| Ok (a : A)
| Raise (e : exn).
Arguments Ok {A} a.
Arguments Raise {A} e.

Definition bind {A B} (r : result A) (k : A -> result B) : result B :=
  match r with
  | Ok a => k a
  | Raise e => Raise e
  end.

Definition raise {A} (c : exc_class) (msg : string) : result A :=
  Raise (mkExn c msg).

Declare Scope py_scope.
Delimit Scope py_scope with py.
Notation "x <- c1 ;; c2" := (bind c1 (fun x => c2))
  (at level 61, c1 at next level, right associativity) : py_scope.

Definition dq : string := String (ascii_of_nat 34) EmptyString.
Definition sq : string := String (ascii_of_nat 39) EmptyString.

(** [str(n)] for an [int]. *)
Definition str_int (z : Z) : string := NilZero.string_of_int (Z.to_int z).

(** *** [repr] of a [str], as [str(KeyError(msg))] prints its argument.
    Quote choice and the escapes of the quote, the backslash, newline,
    carriage return and tab follow CPython; other control characters do
    not occur in the texts the program puts in a [KeyError]. *)
Fixpoint has_char (c : ascii) (s : string) : bool :=
  match s with
  | EmptyString => false
  | String a rest => Ascii.eqb a c || has_char c rest
  end.

Fixpoint escape (quote : ascii) (s : string) : string :=
  match s with
  | EmptyString => EmptyString
  | String a rest =>
      let tail := escape quote rest in
      if Ascii.eqb a quote || Ascii.eqb a (ascii_of_nat 92)
      then String (ascii_of_nat 92) (String a tail)
      else if Ascii.eqb a (ascii_of_nat 10) then String (ascii_of_nat 92) (String "n" tail)
      else if Ascii.eqb a (ascii_of_nat 13) then String (ascii_of_nat 92) (String "r" tail)
      else if Ascii.eqb a (ascii_of_nat 9) then String (ascii_of_nat 92) (String "t" tail)
      else String a tail
  end.

Definition repr_str (s : string) : string :=
  if has_char (ascii_of_nat 39) s && negb (has_char (ascii_of_nat 34) s)
  then dq ++ escape (ascii_of_nat 34) s ++ dq
  else sq ++ escape (ascii_of_nat 39) s ++ sq.

(** [str(error)]: a [KeyError] prints the [repr] of its argument, the
    other classes print the argument itself. *)
Definition str_exn (e : exn) : string :=
  match exc_type e with
  | KeyError => repr_str (exc_arg e)
  | _ => exc_arg e
  end.

(** *** Operators on values *)

Definition type_name (v : pyval) : string :=
  match v with
  | PyNone => "NoneType"
  | PyBool _ => "bool"
  | PyInt _ => "int"
  | PyFloat _ => "float"
  | PyStr _ => "str"
  | PyList _ => "list"
  | PyDict _ => "dict"
  end.

Definition isinstance_dict (v : pyval) : bool :=
  match v with PyDict _ => true | _ => false end.

Definition isinstance_list (v : pyval) : bool :=
  match v with PyList _ => true | _ => false end.

(** [bool] is a subclass of [int]: [isinstance(True, int)] holds. *)
Definition isinstance_int (v : pyval) : bool :=
  match v with PyInt _ | PyBool _ => true | _ => false end.

Definition is_None (v : pyval) : bool :=
  match v with PyNone => true | _ => false end.

Fixpoint lookup {V} (k : string) (items : list (string * V)) : option V :=
  match items with
  | [] => None
  | (k', v) :: rest => if String.eqb k' k then Some v else lookup k rest
  end.

(** [x == 'k'] for a [str] literal on the right. *)
Definition eq_str (v : pyval) (k : string) : bool :=
  match v with PyStr s => String.eqb s k | _ => false end.

Fixpoint str_contains (needle hay : string) : bool :=
  if prefix needle hay then true
  else match hay with
       | EmptyString => false
       | String _ rest => str_contains needle rest
       end.

(** ['k' in container]: key test on a dict, substring test on a str,
    element test on a list, [TypeError] on the rest. *)
Definition contains (k : string) (container : pyval) : result bool :=
  match container with
  | PyDict items => Ok (match lookup k items with Some _ => true | None => false end)
  | PyStr s => Ok (str_contains k s)
  | PyList items => Ok (existsb (fun v => eq_str v k) items)
  | _ => raise TypeError
           ("argument of type " ++ sq ++ type_name container ++ sq ++ " is not iterable")
  end.

(** [obj.get('k')]: only a dict has the method; an absent key gives [None]. *)
Definition get (obj : pyval) (k : string) : result pyval :=
  match obj with
  | PyDict items => Ok (match lookup k items with Some v => v | None => PyNone end)
  | _ => raise AttributeError
           (sq ++ type_name obj ++ sq ++ " object has no attribute " ++ sq ++ "get" ++ sq)
  end.

(** [format(v, '')], which an f-string applies to [{v}].  It is [str(v)]:
    written out for the scalars; the [repr] of a float and of a container
    (shortest round-trip digits, Unicode printability) is the
    interpreter's and is taken as a parameter. *)
Section Format.
Variable repr_other : pyval -> string.

Definition format_value (v : pyval) : string :=
  match v with
  | PyStr s => s
  | PyNone => "None"
  | PyBool true => "True"
  | PyBool false => "False"
  | PyInt z => str_int z
  | _ => repr_other v
  end.
End Format.


(** Truth value of an environment variable, as [all(...)] takes it:
    [None] and [''] are false. *)
Definition truthy_opt_str (o : option string) : bool :=
  match o with
  | None => false
  | Some s => negb (String.eqb s "")
  end.

End Py.

(** ** The program *)

Module Homework.
Import Py.

(** *** Module-level constants (lines 12-24) *)

Record environ : Type := mkEnviron {
  PRACTICUM_TOKEN : option string;
  TELEGRAM_TOKEN : option string;
  TELEGRAM_CHAT_ID : option string
}.

Definition RETRY_PERIOD : Z := 600.

Definition ENDPOINT : string :=
  "https://practicum.yandex.ru/api/user_api/homework_statuses/".

Definition HOMEWORK_VERDICTS : list (string * string) :=
  [ ("approved", "Работа проверена: ревьюеру всё понравилось. Ура!");
    ("reviewing", "Работа взята на проверку ревьюером.");
    ("rejected", "Работа проверена: у ревьюера есть замечания.") ].

(** *** What the outside world answers *)

(** [response.json()] returns a value or raises (a body that is not JSON). *)
Inductive json_reply : Type :=
| JsonValue (v : pyval)
| JsonRaises (e : exn).

(** [requests.get(...)] raises a [requests.RequestException] (printed as
    [err]) or returns a response. *)
Inductive http_reply : Type :=
| RequestException (err : string)
| HttpResponse (status_code : Z) (body : json_reply).

(** [bot.send_message(...)] returns or raises; [except BadRequest]
    selects by class. *)
Inductive bot_reply : Type :=
| Delivered
| SendRaises (e : exn).

Definition BadRequest : exc_class := LibraryError "telegram.error.BadRequest".

Definition isinstance_BadRequest (e : exn) : bool :=
  match exc_type e with
  | LibraryError qualname => String.eqb qualname "telegram.error.BadRequest"
  | _ => false
  end.

(** One pass of the loop meets one HTTP answer and at most two answers of
    the bot: to the send of line 135 and to the send of line 145. *)
Record poll : Type := mkPoll {
  http : http_reply;
  bot_status : bot_reply;
  bot_diag : bot_reply
}.

(** *** Observable events *)

Inductive level : Type := DEBUG | ERROR | CRITICAL.

Inductive event : Type :=
| Log (lvl : level) (msg : string)
| HttpGet (from_date : pyval)
| BotSend (text : string)
| Sleep (seconds : Z).

(** *** Loop variables

    [message is not previous_message] compares object identity, so a
    [str] is kept with the identity of the object that holds it.  Every
    evaluation of an f-string builds a new object; [next_id] is the
    allocator.  [timestamp] holds the value under ['from_date']. *)
Record str_obj : Type := mkStr { obj_id : nat; text : string }.

Record loop_state : Type := mkState {
  timestamp : pyval;
  previous_message : str_obj;
  next_id : nat
}.

Definition is_not (a b : str_obj) : bool := negb (Nat.eqb (obj_id a) (obj_id b)).

(** *** The monad of [main]: loop variables, trace, pending exception *)

Definition M (A : Type) : Type := loop_state -> result A * loop_state * list event.

Definition ret {A} (a : A) : M A := fun st => (Ok a, st, []).

Definition throw {A} (e : exn) : M A := fun st => (Raise e, st, []).

Definition lift {A} (r : result A) : M A := fun st => (r, st, []).

Definition mbind {A B} (m : M A) (k : A -> M B) : M B :=
  fun st =>
    match m st with
    | (Ok a, st1, t1) => let '(r, st2, t2) := k a st1 in (r, st2, (t1 ++ t2)%list)
    | (Raise e, st1, t1) => (Raise e, st1, t1)
    end.

Definition emit (ev : event) : M unit := fun st => (Ok tt, st, [ev]).

Definition read {A} (f : loop_state -> A) : M A := fun st => (Ok (f st), st, []).

Definition assign (f : loop_state -> loop_state) : M unit := fun st => (Ok tt, f st, []).

(** [try: body except Exception as error: handler error] *)
Definition try_except {A} (body : M A) (handler : exn -> M A) : M A :=
  fun st =>
    match body st with
    | (Raise e, st1, t1) => let '(r, st2, t2) := handler e st1 in (r, st2, (t1 ++ t2)%list)
    | done => done
    end.

(** [... finally: cleanup]: the cleanup runs on both exits and a pending
    exception is raised again after it. *)
Definition finally {A} (body : M A) (cleanup : M unit) : M A :=
  fun st =>
    let '(r, st1, t1) := body st in
    match cleanup st1 with
    | (Ok _, st2, t2) => (r, st2, (t1 ++ t2)%list)
    | (Raise e, st2, t2) => (Raise e, st2, (t1 ++ t2)%list)
    end.

Declare Scope loop_scope.
Delimit Scope loop_scope with loop.
Notation "x <- c1 ;; c2" := (mbind c1 (fun x => c2))
  (at level 61, c1 at next level, right associativity) : loop_scope.
Notation "c1 ;; c2" := (mbind c1 (fun _ => c2))
  (at level 61, right associativity) : loop_scope.

(** A new [str] object holding [s]. *)
Definition new_str (s : string) : M str_obj :=
  fun st =>
    (Ok (mkStr (next_id st) s),
     mkState (timestamp st) (previous_message st) (S (next_id st)),
     []).

Definition set_previous_message (m : str_obj) (st : loop_state) : loop_state :=
  mkState (timestamp st) m (next_id st).

Definition set_timestamp (v : pyval) (st : loop_state) : loop_state :=
  mkState v (previous_message st) (next_id st).

(** *** check_tokens (lines 27-29) *)

Definition check_tokens (env : environ) : bool :=
  truthy_opt_str (PRACTICUM_TOKEN env)
  && truthy_opt_str (TELEGRAM_TOKEN env)
  && truthy_opt_str (TELEGRAM_CHAT_ID env).

(** *** send_message (lines 32-44) *)

Definition send_message (reply : bot_reply) (message : string) : M bool :=
  (try_except
     (emit (BotSend message) ;;
      match reply with
      | Delivered => emit (Log DEBUG "Bot sent message to Telegram")
      | SendRaises e => throw e
      end)
     (fun error =>
        if isinstance_BadRequest error then
          emit (Log ERROR ("Error " ++ dq ++ str_exn error ++ dq
                           ++ " when sending a message to Telegram"))
        else throw error) ;;
   ret true)%loop.

(** *** get_api_answer (lines 47-70) *)

(** Lines 56-70, once [requests.get] has answered. *)
Definition api_answer (reply : http_reply) : result pyval :=
  match reply with
  | RequestException error =>
      raise ConnectionError
        ("Error " ++ error ++ " occurred when "
         ++ "requesting the API endpoint: " ++ ENDPOINT)
  | HttpResponse status_code body =>
      if negb (status_code =? 200)%Z then
        raise ConnectionError
          ("Endpoint " ++ ENDPOINT ++ " unavailable. "
           ++ "Status code: " ++ str_int status_code)
      else
        match body with
        | JsonValue v => Ok v
        | JsonRaises e => Raise e
        end
  end.

Definition get_api_answer (reply : http_reply) (timestamp : pyval) : M pyval :=
  (emit (HttpGet timestamp) ;; lift (api_answer reply))%loop.

(** *** check_response (lines 73-94) *)

Definition check_response (response : pyval) : result (list pyval) :=
  (if negb (isinstance_dict response) then
     raise TypeError "The data must be of the dict type"
   else
   has_homeworks <- contains "homeworks" response ;;
   if negb has_homeworks then
     raise KeyError ("The " ++ dq ++ "homework" ++ dq ++ " key not found")
   else
   homeworks <- get response "homeworks" ;;
   match homeworks with
   | PyList items =>
       has_date <- contains "current_date" response ;;
       if negb has_date then
         raise KeyError ("The " ++ dq ++ "current_date" ++ dq ++ " key not found")
       else
       current_date <- get response "current_date" ;;
       if is_None current_date then
         raise ValueError ("The " ++ dq ++ "current_date" ++ dq ++ " value not found")
       else
       if negb (isinstance_int current_date) then
         raise TypeError "The data must be of the int type"
       else
       Ok items
   | _ => raise TypeError "The data must be of the list type"
   end)%py.

(** *** parse_status (lines 97-115) *)

(** The probe of [HOMEWORK_VERDICTS] by [homework.get('status')]: the
    key is hashed first, which a list or a dict refuses; a hashable value
    that is not a [str] equals no key.  Lines 105 and 110 probe the same
    constant table with the same key and are modelled by this one probe. *)
Definition probe_verdicts (key : pyval) : result (option string) :=
  match key with
  | PyStr s => Ok (lookup s HOMEWORK_VERDICTS)
  | PyList _ | PyDict _ =>
      raise TypeError ("unhashable type: " ++ sq ++ type_name key ++ sq)
  | _ => Ok None
  end.

Section Program.
Variable repr_other : pyval -> string.

Definition status_message (homework_name verdict : string) : string :=
  "Изменился статус проверки работы "
  ++ dq ++ homework_name ++ dq ++ ". " ++ verdict.

Definition parse_status (homework : pyval) : result string :=
  (has_name <- contains "homework_name" homework ;;
   if negb has_name then
     raise KeyError ("The " ++ dq ++ "homework_name" ++ dq ++ " is missing")
   else
   has_status <- contains "status" homework ;;
   if negb has_status then
     raise KeyError ("The " ++ dq ++ "status" ++ dq ++ " is missing")
   else
   status <- get homework "status" ;;
   entry <- probe_verdicts status ;;
   match entry with
   | None => raise ValueError "Status unknown or missing"
   | Some verdict =>
       homework_name <- get homework "homework_name" ;;
       Ok (status_message (format_value repr_other homework_name) verdict)
   end)%py.

(** *** main (lines 118-149) *)

Definition diagnostic (error : exn) : string :=
  "Сбой в работе программы: " ++ str_exn error.

(** The body of [try:], lines 130-139.  [if homeworks:] takes the
    branch of a list that is not empty. *)
Definition try_body (p : poll) : M unit :=
  (cursor <- read timestamp ;;
   response <- get_api_answer (http p) cursor ;;
   homeworks <- lift (check_response response) ;;
   match homeworks with
   | first :: _ =>
       message_text <- lift (parse_status first) ;;
       message <- new_str message_text ;;
       previous <- read previous_message ;;
       if is_not message previous then
         sent <- send_message (bot_status p) (text message) ;;
         if sent then
           assign (set_previous_message message) ;;
           current_date <- lift (get response "current_date") ;;
           assign (set_timestamp current_date)
         else ret tt
       else ret tt
   | [] => emit (Log DEBUG "Status not updated")
   end)%loop.

(** The body of [except Exception as error:], lines 142-146. *)
Definition handler (p : poll) (error : exn) : M unit :=
  (err_msg <- new_str (diagnostic error) ;;
   emit (Log ERROR (text err_msg)) ;;
   previous <- read previous_message ;;
   if is_not err_msg previous then
     sent <- send_message (bot_diag p) (text err_msg) ;;
     if sent then assign (set_previous_message err_msg) else ret tt
   else ret tt)%loop.

(** One pass of [while True:], lines 129-149. *)
Definition iteration (p : poll) : M unit :=
  finally (try_except (try_body p) (handler p)) (emit (Sleep RETRY_PERIOD)).

(** [while True:] against the first answers of the world; an exception
    that leaves a pass leaves the loop. *)
Fixpoint loop (ps : list poll) : M unit :=
  match ps with
  | [] => ret tt
  | p :: rest => (iteration p ;; loop rest)%loop
  end.

(** The world [main] runs in: the environment read at import, the clock
    at startup, what [Bot(token=...)] raises, if anything, when it is
    given a token, and the answers met by the loop. *)
Record world : Type := mkWorld {
  env : environ;
  clock : Z;
  bot_init : option exn;
  polls : list poll
}.

(** The literal [''] of line 126 is object 0. *)
Definition start_state (now : Z) : loop_state :=
  mkState (PyInt now) (mkStr 0 "") 1.

(** Lines 120-122: the [SystemExit()] of line 122 is an expression
    statement: the exception object is built and dropped, nothing is
    raised. *)
Definition startup (e : environ) : list event :=
  if negb (check_tokens e) then
    [Log CRITICAL "Required environment variables are missing"]
  else [].

(** [Bot(token=TELEGRAM_TOKEN)], line 124.  The constructor checks the
    token character by character before anything else, so without a
    token ([None]) it raises and [main] ends there; given a string it
    does what the world says. *)
Definition build_bot (token : option string) (given : option exn) : option exn :=
  match token with
  | None => Some (mkExn TypeError (sq ++ "NoneType" ++ sq ++ " object is not iterable"))
  | Some _ => given
  end.

Definition main (w : world) : result unit * option loop_state * list event :=
  let t0 := startup (env w) in
  match build_bot (TELEGRAM_TOKEN (env w)) (bot_init w) with
  | Some e => (Raise e, None, t0)
  | None =>
      let '(r, st, t) := loop (polls w) (start_state (clock w)) in
      (r, Some st, (t0 ++ t)%list)
  end.

End Program.

End Homework.

(** ** The design, in the words of the specification *)

Module Design.
Import Py Homework.

(** *** The Validator (4.2): six checks in order, each with its error kind *)

Inductive error_kind : Type :=
| type_error
| missing_key_error
| value_error
| other_error.

Definition kind_of (e : exn) : error_kind :=
  match exc_type e with
  | TypeError => type_error
  | KeyError => missing_key_error
  | ValueError => value_error
  | _ => other_error
  end.

Definition has_key (k : string) (raw : pyval) : bool :=
  match raw with
  | PyDict items => match lookup k items with Some _ => true | None => false end
  | _ => false
  end.

Definition value_at (k : string) (raw : pyval) : pyval :=
  match raw with
  | PyDict items => match lookup k items with Some v => v | None => PyNone end
  | _ => PyNone
  end.

(** An integer, as the specification means it for ['current_date']: a
    JSON number without fraction; [true] and [false] are not integers. *)
Definition is_integer (v : pyval) : bool :=
  match v with PyInt _ => true | _ => false end.

(** The reading that also lets a JSON boolean through. *)
Definition is_integer_or_boolean (v : pyval) : bool :=
  match v with PyInt _ | PyBool _ => true | _ => false end.

Definition validator_checks (integer : pyval -> bool)
  : list ((pyval -> bool) * error_kind) :=
  [ (isinstance_dict, type_error);
    (has_key "homeworks", missing_key_error);
    (fun raw => isinstance_list (value_at "homeworks" raw), type_error);
    (has_key "current_date", missing_key_error);
    (fun raw => negb (is_None (value_at "current_date" raw)), value_error);
    (fun raw => integer (value_at "current_date" raw), type_error) ].

Fixpoint first_violation (checks : list ((pyval -> bool) * error_kind)) (raw : pyval)
  : option error_kind :=
  match checks with
  | [] => None
  | (holds, kind) :: rest => if holds raw then first_violation rest raw else Some kind
  end.

Definition sequence_at (k : string) (raw : pyval) : list pyval :=
  match value_at k raw with PyList items => items | _ => [] end.

Definition validator (integer : pyval -> bool) (raw : pyval)
  : error_kind + list pyval :=
  match first_violation (validator_checks integer) raw with
  | Some kind => inl kind
  | None => inr (sequence_at "homeworks" raw)
  end.

(** What a caller of [check_response] observes: the kind of the error or
    the returned sequence. *)
Definition observed (r : result (list pyval)) : error_kind + list pyval :=
  match r with
  | Ok items => inr items
  | Raise e => inl (kind_of e)
  end.

(** *** Steps a-c of the cycle (4.5): fetch, validate, extract *)

Inductive findings : Type :=
| NoHomeworks
| StatusUpdate (message : string) (current_date : pyval).

Definition examine (repr_other : pyval -> string) (reply : http_reply) : result findings :=
  (response <- api_answer reply ;;
   homeworks <- check_response response ;;
   match homeworks with
   | [] => Ok NoHomeworks
   | first :: _ =>
       message <- parse_status repr_other first ;;
       Ok (StatusUpdate message (value_at "current_date" response))
   end)%py.

(** The Notifier reports success: the send returned, or was rejected
    with [BadRequest]. *)
Definition send_returns (reply : bot_reply) : bool :=
  match reply with
  | Delivered => true
  | SendRaises e => isinstance_BadRequest e
  end.

(** [previous_message] is an object that exists: its identity was handed
    out before [next_id]. *)
Definition well_formed (st : loop_state) : Prop :=
  obj_id (previous_message st) < next_id st.

(** The object an f-string builds in state [st], and the state after it. *)
Definition fresh (st : loop_state) (s : string) : str_obj := mkStr (next_id st) s.

Definition allocated (st : loop_state) : loop_state :=
  mkState (timestamp st) (previous_message st) (S (next_id st)).

Definition final_state {A} (run : result A * loop_state * list event) : loop_state :=
  snd (fst run).

Definition outcome {A} (run : result A * loop_state * list event) : result A :=
  fst (fst run).

Definition trace {A} (run : result A * loop_state * list event) : list event :=
  snd run.

(** Calls of [bot.send_message] with the text [m] in a trace. *)
Fixpoint sends_of (m : string) (t : list event) : nat :=
  match t with
  | [] => 0
  | BotSend m' :: rest => (if String.eqb m' m then 1 else 0) + sends_of m rest
  | _ :: rest => sends_of m rest
  end.

(** Counting the events of one sort in a trace. *)
Definition is_send (ev : event) : bool :=
  match ev with BotSend _ => true | _ => false end.

Definition is_request (ev : event) : bool :=
  match ev with HttpGet _ => true | _ => false end.

Definition is_sleep (ev : event) : bool :=
  match ev with Sleep _ => true | _ => false end.

Definition count (sort : event -> bool) (t : list event) : nat :=
  length (filter sort t).

(** What a pass leaves once the handler has run on [e], entered in state
    [st0] after the events [t0]; [diag] is the answer of the bot to the
    send of the diagnostic. *)
Definition handled (diag : bot_reply) (e : exn) (st0 : loop_state) (t0 : list event)
  : result unit * loop_state * list event :=
  if is_not (fresh st0 (diagnostic e)) (previous_message st0) then
    match diag with
    | Delivered =>
        (Ok tt, mkState (timestamp st0) (fresh st0 (diagnostic e)) (S (next_id st0)),
         (t0 ++ [Log ERROR (diagnostic e); BotSend (diagnostic e);
                 Log DEBUG "Bot sent message to Telegram"; Sleep RETRY_PERIOD])%list)
    | SendRaises e' =>
        if isinstance_BadRequest e' then
          (Ok tt, mkState (timestamp st0) (fresh st0 (diagnostic e)) (S (next_id st0)),
           (t0 ++ [Log ERROR (diagnostic e); BotSend (diagnostic e);
                   Log ERROR ("Error " ++ dq ++ str_exn e' ++ dq
                              ++ " when sending a message to Telegram");
                   Sleep RETRY_PERIOD])%list)
        else
          (Raise e', allocated st0,
           (t0 ++ [Log ERROR (diagnostic e); BotSend (diagnostic e);
                   Sleep RETRY_PERIOD])%list)
    end
  else (Ok tt, allocated st0, (t0 ++ [Log ERROR (diagnostic e); Sleep RETRY_PERIOD])%list).

(** In the examples every formatted value is a scalar; the parameter of
    [format_value] is not consulted. *)
Definition repr_unused : pyval -> string := fun _ => EmptyString.

(** *** The scenarios of section 8 and the replies used in the examples *)

Definition homework (name status : pyval) : pyval :=
  PyDict [("homework_name", name); ("status", status)].

Definition response_of (homeworks : list pyval) (current_date : pyval) : pyval :=
  PyDict [("homeworks", PyList homeworks); ("current_date", current_date)].

Definition scenario1 : pyval :=
  response_of [homework (PyStr "hw1") (PyStr "approved")] (PyInt 1000).

Definition scenario2 : pyval := response_of [] (PyInt 1000).

Definition scenario3 : pyval := PyDict [("current_date", PyInt 1000)].

Definition answers (body : pyval) (status diag : bot_reply) : poll :=
  mkPoll (HttpResponse 200 (JsonValue body)) status diag.

Definition NetworkError (msg : string) : exn :=
  mkExn (LibraryError "telegram.error.NetworkError") msg.

Definition chat_not_found : exn := mkExn BadRequest "Chat not found".

Definition unreachable : poll :=
  mkPoll (RequestException "Connection refused") Delivered Delivered.

End Design.

(** ** Properties *)

Import Py Homework Design.

Section Validation.

(** C4, amended.  [check_response] behaves as the six ordered checks of
    the Validator: it raises the error kind of the first check that
    fails (type error for a non-mapping, missing-key error for an absent
    ['homeworks'], type error for a ['homeworks'] that is not a list,
    missing-key error for an absent ['current_date'], value error for a
    null ['current_date'], type error for a ['current_date'] that is
    neither an integer nor a boolean) and otherwise returns the sequence
    stored under ['homeworks'] as it is; on every response whose
    ['current_date'] is not a boolean it is the Validator with the
    strict integer check. *)
Theorem check_response_first_violation :
  (forall response : pyval,
      observed (check_response response) = validator is_integer_or_boolean response)
  /\ (forall response : pyval,
         (forall b, value_at "current_date" response <> PyBool b) ->
         observed (check_response response) = validator is_integer response).
Proof.
  assert (H : forall response : pyval,
             observed (check_response response)
             = validator is_integer_or_boolean response).
  { intros response.
    destruct response as [ | b | z | x | s | l | items]; try reflexivity.
    unfold validator, check_response, sequence_at. cbn.
    destruct (lookup "homeworks" items) as [hw | ]; cbn; [ | reflexivity].
    destruct hw; cbn; try reflexivity.
    destruct (lookup "current_date" items) as [cd | ]; cbn; [ | reflexivity].
    destruct cd; reflexivity. }
  split; [exact H | ].
  intros response Hbool. rewrite H.
  destruct response as [ | b | z | x | s | l | items]; try reflexivity.
  unfold validator, sequence_at. cbn in *.
  destruct (lookup "homeworks" items) as [hw | ]; cbn; [ | reflexivity].
  destruct hw; cbn; try reflexivity.
  destruct (lookup "current_date" items) as [cd | ]; cbn; [ | reflexivity].
  destruct cd; try reflexivity.
  exfalso. eapply Hbool. reflexivity.
Qed.

End Validation.

Section Extraction.
Variable repr_other : pyval -> string.

Lemma parse_status_dict :
  forall items,
    parse_status repr_other (PyDict items) =
    match lookup "homework_name" items, lookup "status" items with
    | None, _ =>
        raise KeyError ("The " ++ dq ++ "homework_name" ++ dq ++ " is missing")
    | Some _, None =>
        raise KeyError ("The " ++ dq ++ "status" ++ dq ++ " is missing")
    | Some name, Some status =>
        match probe_verdicts status with
        | Raise e => Raise e
        | Ok None => raise ValueError "Status unknown or missing"
        | Ok (Some verdict) =>
            Ok (status_message (format_value repr_other name) verdict)
        end
    end.
Proof.
  intros items. unfold parse_status. cbn.
  destruct (lookup "homework_name" items) as [name | ]; cbn; [ | reflexivity].
  destruct (lookup "status" items) as [status | ]; cbn; [ | reflexivity].
  destruct (probe_verdicts status) as [[verdict | ] | e]; reflexivity.
Qed.

(** C5.  A record that has ['homework_name'] and whose ['status'] is a
    key of the verdict table is turned into exactly
    [Изменился статус проверки работы "{homework_name}". {verdict}];
    the record of homework "hw1" with status "approved" gives the text
    of scenario 1. *)
Theorem parse_status_known_status :
  (forall items name status verdict,
      lookup "homework_name" items = Some name ->
      lookup "status" items = Some (PyStr status) ->
      lookup status HOMEWORK_VERDICTS = Some verdict ->
      parse_status repr_other (PyDict items) =
      Ok ("Изменился статус проверки работы "
          ++ dq ++ format_value repr_other name ++ dq ++ ". " ++ verdict))
  /\ parse_status repr_other
       (PyDict [("homework_name", PyStr "hw1"); ("status", PyStr "approved")]) =
     Ok ("Изменился статус проверки работы " ++ dq ++ "hw1" ++ dq
         ++ ". Работа проверена: ревьюеру всё понравилось. Ура!").
Proof.
  split.
  - intros items name status verdict Hname Hstatus Hverdict.
    rewrite parse_status_dict, Hname, Hstatus.
    unfold probe_verdicts. rewrite Hverdict. reflexivity.
  - reflexivity.
Qed.




End Extraction.

Section Loop.
Variable repr_other : pyval -> string.

Lemma send_message_run :
  forall reply m st,
    send_message reply m st =
    match reply with
    | Delivered =>
        (Ok true, st, [BotSend m; Log DEBUG "Bot sent message to Telegram"])
    | SendRaises e =>
        if isinstance_BadRequest e then
          (Ok true, st,
           [BotSend m;
            Log ERROR ("Error " ++ dq ++ str_exn e ++ dq
                       ++ " when sending a message to Telegram")])
        else (Raise e, st, [BotSend m])
    end.
Proof.
  intros [ | e] m st.
  - reflexivity.
  - unfold send_message, mbind, try_except, emit, throw, ret.
    destruct (isinstance_BadRequest e); reflexivity.
Qed.

Lemma validated_is_dict :
  forall response items,
    check_response response = Ok items ->
    get response "current_date" = Ok (value_at "current_date" response).
Proof.
  intros response items H.
  destruct response; try discriminate. reflexivity.
Qed.

Lemma try_body_run :
  forall p st,
    try_body repr_other p st =
    match examine repr_other (http p) with
    | Raise e => (Raise e, st, [HttpGet (timestamp st)])
    | Ok NoHomeworks =>
        (Ok tt, st, [HttpGet (timestamp st); Log DEBUG "Status not updated"])
    | Ok (StatusUpdate m d) =>
        if is_not (fresh st m) (previous_message st) then
          match send_message (bot_status p) m (allocated st) with
          | (Ok _, _, t) =>
              (Ok tt, mkState d (fresh st m) (S (next_id st)),
               HttpGet (timestamp st) :: t)
          | (Raise e, _, t) => (Raise e, allocated st, HttpGet (timestamp st) :: t)
          end
        else (Ok tt, allocated st, [HttpGet (timestamp st)])
    end.
Proof.
  intros p st.
  unfold try_body, examine, get_api_answer, mbind, read, lift, emit, bind.
  destruct (api_answer (http p)) as [response | e]; [ | reflexivity].
  destruct (check_response response) as [homeworks | e] eqn:Hcheck; [ | reflexivity].
  destruct homeworks as [ | first rest]; [reflexivity | ].
  destruct (parse_status repr_other first) as [m | e]; [ | reflexivity].
  unfold new_str, fresh, allocated. cbn [text next_id previous_message timestamp].
  destruct (is_not _ _); [ | reflexivity].
  rewrite send_message_run.
  rewrite (validated_is_dict _ _ Hcheck).
  destruct (bot_status p) as [ | e]; [reflexivity | ].
  destruct (isinstance_BadRequest e); reflexivity.
Qed.

Lemma handler_run :
  forall p e st,
    handler p e st =
    if is_not (fresh st (diagnostic e)) (previous_message st) then
      match send_message (bot_diag p) (diagnostic e) (allocated st) with
      | (Ok _, _, t) =>
          (Ok tt, mkState (timestamp st) (fresh st (diagnostic e)) (S (next_id st)),
           Log ERROR (diagnostic e) :: t)
      | (Raise e', _, t) => (Raise e', allocated st, Log ERROR (diagnostic e) :: t)
      end
    else (Ok tt, allocated st, [Log ERROR (diagnostic e)]).
Proof.
  intros p e st.
  unfold handler, mbind, new_str, emit, read, fresh, allocated.
  cbn [text next_id previous_message timestamp].
  destruct (is_not _ _); [ | reflexivity].
  rewrite send_message_run.
  destruct (bot_diag p) as [ | e']; [reflexivity | ].
  destruct (isinstance_BadRequest e'); reflexivity.
Qed.

(** A new object is never the object [previous_message] refers to. *)
Lemma fresh_is_not_previous :
  forall st s, well_formed st -> is_not (fresh st s) (previous_message st) = true.
Proof.
  intros st s Hwf. unfold is_not, fresh, well_formed in *. cbn [obj_id].
  apply negb_true_iff, Nat.eqb_neq. lia.
Qed.

Lemma allocated_well_formed :
  forall st, well_formed st -> well_formed (allocated st).
Proof.
  unfold well_formed, allocated. cbn. intros st H. lia.
Qed.

Lemma iteration_run :
  forall p st,
    iteration repr_other p st =
    let '(r, st1, t1) :=
      match try_body repr_other p st with
      | (Raise e, st1, t1) =>
          let '(r, st2, t2) := handler p e st1 in (r, st2, (t1 ++ t2)%list)
      | done => done
      end in
    (r, st1, (t1 ++ [Sleep RETRY_PERIOD])%list).
Proof.
  intros p st. unfold iteration, finally, try_except, emit.
  destruct (try_body repr_other p st) as [[[u | e] st1] t1].
  - reflexivity.
  - destruct (handler p e st1) as [[r st2] t2]. reflexivity.
Qed.

Lemma start_state_well_formed : forall now, well_formed (start_state now).
Proof. intros now. unfold well_formed, start_state. cbn. lia. Qed.

Lemma iteration_well_formed :
  forall p st,
    well_formed st -> well_formed (final_state (iteration repr_other p st)).
Proof.
  intros p st Hwf. rewrite iteration_run, try_body_run.
  pose proof (allocated_well_formed _ Hwf) as Hwf1.
  assert (Hnew : forall v s, well_formed (mkState v (fresh st s) (S (next_id st))))
    by (intros v s; unfold well_formed, fresh; cbn; lia).
  assert (Hnew1 : forall v s,
             well_formed (mkState v (fresh (allocated st) s) (S (next_id (allocated st)))))
    by (intros v s; unfold well_formed, fresh; cbn; lia).
  assert (Hwf2 : well_formed (allocated (allocated st)))
    by (apply allocated_well_formed; exact Hwf1).
  assert (Hhandler : forall e st0 t0,
             well_formed st0 ->
             (forall v s, well_formed (mkState v (fresh st0 s) (S (next_id st0)))) ->
             well_formed
               (final_state
                  (let '(r, st1, t1) :=
                     let '(r, st2, t2) := handler p e st0 in (r, st2, (t0 ++ t2)%list) in
                   (r, st1, (t1 ++ [Sleep RETRY_PERIOD])%list)))).
  { intros e st0 t0 H0 H1. rewrite handler_run, send_message_run.
    destruct (is_not _ _); [ | apply allocated_well_formed; exact H0].
    destruct (bot_diag p) as [ | e']; [apply H1 | ].
    destruct (isinstance_BadRequest e');
      [apply H1 | apply allocated_well_formed; exact H0]. }
  destruct (examine repr_other (http p)) as [[ | m d] | e].
  - exact Hwf.
  - rewrite send_message_run.
    destruct (is_not _ _); [ | exact Hwf1].
    destruct (bot_status p) as [ | e]; [apply Hnew | ].
    destruct (isinstance_BadRequest e); [apply Hnew | ].
    apply Hhandler; [exact Hwf1 | ].
    intros v s. unfold well_formed, fresh, allocated in *. cbn in *. lia.
  - apply Hhandler; [exact Hwf | exact Hnew].
Qed.

(** Every state the loop reaches from [start_state] is well formed. *)
Lemma loop_well_formed :
  forall ps st,
    well_formed st -> well_formed (final_state (loop repr_other ps st)).
Proof.
  induction ps as [ | p rest IH]; intros st Hwf.
  - exact Hwf.
  - cbn [loop]. unfold mbind.
    pose proof (iteration_well_formed p st Hwf) as H1.
    destruct (iteration repr_other p st) as [[[u | e] st1] t1]; cbn in H1.
    + specialize (IH st1 H1).
      destruct (loop repr_other rest st1) as [[r st2] t2]. exact IH.
    + exact H1.
Qed.

Lemma examine_empty :
  forall reply response,
    api_answer reply = Ok response ->
    check_response response = Ok [] ->
    examine repr_other reply = Ok NoHomeworks.
Proof.
  intros reply response Hfetch Hcheck.
  unfold examine, bind. rewrite Hfetch, Hcheck. reflexivity.
Qed.

(** C8.  A poll that validates and carries an empty homeworks list logs
    'Status not updated' at debug level and does nothing else: no call
    of the bot, and the loop variables (LastMessage and the cursor) are
    what they were. *)
Theorem empty_poll_only_logs :
  forall p st response,
    api_answer (http p) = Ok response ->
    check_response response = Ok [] ->
    iteration repr_other p st =
    (Ok tt, st,
     [HttpGet (timestamp st); Log DEBUG "Status not updated"; Sleep RETRY_PERIOD]).
Proof.
  intros p st response Hfetch Hcheck.
  rewrite iteration_run, try_body_run.
  rewrite (examine_empty _ _ Hfetch Hcheck). reflexivity.
Qed.

(** C1, amended.  From a well-formed state, one pass of the loop sets the
    cursor to the response's [current_date] when the poll was fetched and
    validated, had a first homework whose status gave a message different
    from LastMessage, and the send of that message returned; the cursor
    is unchanged when steps a-c did not produce a status message (fetch,
    validation or extraction failed, or the homeworks list was empty) and
    when the send did not return.  (The code compares the message with
    LastMessage by identity; the statement speaks of the messages whose
    text differs from it.) *)
Theorem cursor_advance :
  forall p st,
    well_formed st ->
    (forall m d,
        examine repr_other (http p) = Ok (StatusUpdate m d) ->
        m <> text (previous_message st) ->
        send_returns (bot_status p) = true ->
        timestamp (final_state (iteration repr_other p st)) = d)
    /\ ((forall m d, examine repr_other (http p) <> Ok (StatusUpdate m d)) ->
        timestamp (final_state (iteration repr_other p st)) = timestamp st)
    /\ (send_returns (bot_status p) = false ->
        timestamp (final_state (iteration repr_other p st)) = timestamp st).
Proof.
  intros p st Hwf.
  assert (Hhandler : forall e st0 t0,
             timestamp
               (final_state
                  (let '(r, st1, t1) :=
                     let '(r, st2, t2) := handler p e st0 in (r, st2, (t0 ++ t2)%list) in
                   (r, st1, (t1 ++ [Sleep RETRY_PERIOD])%list))) = timestamp st0).
  { intros e st0 t0. rewrite handler_run, send_message_run.
    destruct (is_not _ _); [ | reflexivity].
    destruct (bot_diag p) as [ | e']; [reflexivity | ].
    destruct (isinstance_BadRequest e'); reflexivity. }
  split; [ | split].
  - intros m d Hex _ Hsend.
    rewrite iteration_run, try_body_run, Hex, fresh_is_not_previous by exact Hwf.
    rewrite send_message_run. unfold send_returns in Hsend.
    destruct (bot_status p) as [ | e]; [reflexivity | ].
    rewrite Hsend. reflexivity.
  - intros Hnone. rewrite iteration_run, try_body_run.
    destruct (examine repr_other (http p)) as [[ | m d] | e].
    + reflexivity.
    + exfalso. apply (Hnone m d). reflexivity.
    + apply Hhandler.
  - intros Hsend. rewrite iteration_run, try_body_run.
    destruct (examine repr_other (http p)) as [[ | m d] | e].
    + reflexivity.
    + rewrite send_message_run. unfold send_returns in Hsend.
      destruct (is_not _ _); [ | reflexivity].
      destruct (bot_status p) as [ | e]; [discriminate | ].
      rewrite Hsend. apply (Hhandler e (allocated st)).
    + apply Hhandler.
Qed.

(** C7.  [send_message] returns [True] when the bot raises [BadRequest]:
    the rejection is logged at error level and goes no further; in the
    loop, a status message whose send was rejected still becomes
    LastMessage and the pass ends normally. *)
Theorem rejected_send_reports_success :
  (forall e m st,
      isinstance_BadRequest e = true ->
      send_message (SendRaises e) m st =
      (Ok true, st,
       [BotSend m;
        Log ERROR ("Error " ++ dq ++ str_exn e ++ dq
                   ++ " when sending a message to Telegram")]))
  /\ (forall p st m d e,
         well_formed st ->
         examine repr_other (http p) = Ok (StatusUpdate m d) ->
         bot_status p = SendRaises e ->
         isinstance_BadRequest e = true ->
         outcome (iteration repr_other p st) = Ok tt
         /\ previous_message (final_state (iteration repr_other p st)) = fresh st m).
Proof.
  split.
  - intros e m st He. rewrite send_message_run, He. reflexivity.
  - intros p st m d e Hwf Hex Hbot He.
    rewrite iteration_run, try_body_run, Hex, fresh_is_not_previous by exact Hwf.
    rewrite send_message_run, Hbot, He. split; reflexivity.
Qed.

Lemma iteration_requests_first :
  forall p st,
    exists rest, trace (iteration repr_other p st) = HttpGet (timestamp st) :: rest.
Proof.
  intros p st. rewrite iteration_run, try_body_run.
  assert (Hhandler : forall e st0 t0,
             exists rest,
               trace
                 (let '(r, st1, t1) :=
                    let '(r, st2, t2) := handler p e st0 in
                    (r, st2, ((HttpGet (timestamp st) :: t0) ++ t2)%list) in
                  (r, st1, (t1 ++ [Sleep RETRY_PERIOD])%list))
               = HttpGet (timestamp st) :: rest).
  { intros e st0 t0. destruct (handler p e st0) as [[r st2] t2].
    eexists. reflexivity. }
  destruct (examine repr_other (http p)) as [[ | m d] | e].
  - eexists. reflexivity.
  - rewrite send_message_run.
    destruct (is_not _ _); [ | eexists; reflexivity].
    destruct (bot_status p) as [ | e]; [eexists; reflexivity | ].
    destruct (isinstance_BadRequest e); [eexists; reflexivity | ].
    apply (Hhandler e (allocated st) [BotSend m]).
  - apply (Hhandler e st []).
Qed.

(** The error path while the Notifier answers.  An error raised by the
    fetch, the validation or the status extraction is caught by the pass, formatted into one
    diagnostic, logged at error level and, being distinct from
    LastMessage, handed to the Notifier; the cursor is unchanged; and
    when that send returns, the diagnostic becomes LastMessage, the pass
    ends with the sleep and the next pass requests with the same cursor. *)
Theorem error_path :
  forall p st e,
    well_formed st ->
    examine repr_other (http p) = Raise e ->
    diagnostic e <> text (previous_message st) ->
    timestamp (final_state (iteration repr_other p st)) = timestamp st
    /\ (exists rest,
           trace (iteration repr_other p st) =
           HttpGet (timestamp st) :: Log ERROR (diagnostic e)
             :: BotSend (diagnostic e) :: rest)
    /\ (send_returns (bot_diag p) = true ->
        outcome (iteration repr_other p st) = Ok tt
        /\ previous_message (final_state (iteration repr_other p st))
           = fresh st (diagnostic e)
        /\ (exists lvl note,
               trace (iteration repr_other p st) =
               [HttpGet (timestamp st); Log ERROR (diagnostic e);
                BotSend (diagnostic e); Log lvl note; Sleep RETRY_PERIOD])
        /\ forall next,
            exists before after,
              trace (loop repr_other [p; next] st) =
              (before ++ Sleep RETRY_PERIOD :: HttpGet (timestamp st) :: after)%list).
Proof.
  intros p st e Hwf Hex _.
  assert (Hrun : iteration repr_other p st =
                 match bot_diag p with
                 | Delivered =>
                     (Ok tt, mkState (timestamp st) (fresh st (diagnostic e)) (S (next_id st)),
                      [HttpGet (timestamp st); Log ERROR (diagnostic e);
                       BotSend (diagnostic e);
                       Log DEBUG "Bot sent message to Telegram"; Sleep RETRY_PERIOD])
                 | SendRaises e' =>
                     if isinstance_BadRequest e' then
                       (Ok tt,
                        mkState (timestamp st) (fresh st (diagnostic e)) (S (next_id st)),
                        [HttpGet (timestamp st); Log ERROR (diagnostic e);
                         BotSend (diagnostic e);
                         Log ERROR ("Error " ++ dq ++ str_exn e' ++ dq
                                    ++ " when sending a message to Telegram");
                         Sleep RETRY_PERIOD])
                     else
                       (Raise e', allocated st,
                        [HttpGet (timestamp st); Log ERROR (diagnostic e);
                         BotSend (diagnostic e); Sleep RETRY_PERIOD])
                 end).
  { rewrite iteration_run, try_body_run, Hex, handler_run.
    rewrite fresh_is_not_previous by exact Hwf.
    rewrite send_message_run.
    destruct (bot_diag p) as [ | e']; [reflexivity | ].
    destruct (isinstance_BadRequest e'); reflexivity. }
  split; [ | split].
  - rewrite Hrun. destruct (bot_diag p) as [ | e']; [reflexivity | ].
    destruct (isinstance_BadRequest e'); reflexivity.
  - rewrite Hrun. destruct (bot_diag p) as [ | e']; [eexists; reflexivity | ].
    destruct (isinstance_BadRequest e'); eexists; reflexivity.
  - intros Hsend.
    assert (Hok : exists lvl note,
               iteration repr_other p st =
               (Ok tt, mkState (timestamp st) (fresh st (diagnostic e)) (S (next_id st)),
                [HttpGet (timestamp st); Log ERROR (diagnostic e);
                 BotSend (diagnostic e); Log lvl note; Sleep RETRY_PERIOD])).
    { rewrite Hrun. unfold send_returns in Hsend.
      destruct (bot_diag p) as [ | e']; [do 2 eexists; reflexivity | ].
      rewrite Hsend. do 2 eexists; reflexivity. }
    destruct Hok as (lvl & note & Hok).
    split; [rewrite Hok; reflexivity | ].
    split; [rewrite Hok; reflexivity | ].
    split; [exists lvl, note; rewrite Hok; reflexivity | ].
    intros next. cbn [loop]. unfold mbind at 1. rewrite Hok.
    set (st1 := mkState (timestamp st) (fresh st (diagnostic e)) (S (next_id st))).
    destruct (iteration_requests_first next st1) as (rest & Hnext).
    unfold mbind, ret.
    destruct (iteration repr_other next st1) as [[[u | e2] st2] t2];
      cbn [trace snd] in Hnext; subst t2.
    + exists [HttpGet (timestamp st); Log ERROR (diagnostic e);
              BotSend (diagnostic e); Log lvl note].
      exists (rest ++ [])%list. reflexivity.
    + exists [HttpGet (timestamp st); Log ERROR (diagnostic e);
              BotSend (diagnostic e); Log lvl note].
      exists rest. reflexivity.
Qed.

(** The send of line 135 under the catch-all.  [send_message] lets every
    exception that is not a [BadRequest] out to its caller; when the caller is the send of the
    status message in the [try] block, the pass catches it, logs its
    diagnostic and hands the diagnostic to the Notifier, and neither the
    cursor nor LastMessage is updated for the status message. *)
Theorem status_send_error_is_reported :
  (forall e m st,
      isinstance_BadRequest e = false ->
      send_message (SendRaises e) m st = (Raise e, st, [BotSend m]))
  /\ (forall p st m d e,
         well_formed st ->
         examine repr_other (http p) = Ok (StatusUpdate m d) ->
         m <> text (previous_message st) ->
         bot_status p = SendRaises e ->
         isinstance_BadRequest e = false ->
         (exists rest,
             trace (iteration repr_other p st) =
             HttpGet (timestamp st) :: BotSend m :: Log ERROR (diagnostic e)
               :: BotSend (diagnostic e) :: rest)
         /\ timestamp (final_state (iteration repr_other p st)) = timestamp st
         /\ (previous_message (final_state (iteration repr_other p st))
             = previous_message st
             \/ text (previous_message (final_state (iteration repr_other p st)))
                = diagnostic e)).
Proof.
  split.
  - intros e m st He. rewrite send_message_run, He. reflexivity.
  - intros p st m d e Hwf Hex _ Hbot He.
    rewrite iteration_run, try_body_run, Hex, fresh_is_not_previous by exact Hwf.
    rewrite send_message_run, Hbot, He, handler_run.
    rewrite fresh_is_not_previous by (apply allocated_well_formed; exact Hwf).
    rewrite send_message_run.
    destruct (bot_diag p) as [ | e'].
    + split; [eexists; reflexivity | split; [reflexivity | right; reflexivity]].
    + destruct (isinstance_BadRequest e').
      * split; [eexists; reflexivity | split; [reflexivity | right; reflexivity]].
      * split; [eexists; reflexivity | split; [reflexivity | left; reflexivity]].
Qed.

End Loop.

(** ** The claims on concrete inputs *)

(** The six checks of the Validator, each failing first on one response,
    and the three scenarios that reach it. *)
Example check_response_examples :
  observed (check_response (PyList [])) = inl type_error
  /\ observed (check_response scenario3) = inl missing_key_error
  /\ observed (check_response (PyDict [("homeworks", PyStr "hw1")])) = inl type_error
  /\ observed (check_response (PyDict [("homeworks", PyList [])])) = inl missing_key_error
  /\ observed (check_response (response_of [] PyNone)) = inl value_error
  /\ observed (check_response (response_of [] (PyStr "1000"))) = inl type_error
  /\ check_response scenario2 = Ok []
  /\ check_response scenario1 = Ok [homework (PyStr "hw1") (PyStr "approved")].
Proof. repeat split. Qed.

(** C4 as stated fails: ['current_date'] is the JSON boolean [true],
    which is not an integer, yet [check_response] raises nothing and
    returns the homeworks; the Validator with the strict integer check
    answers with a type error. *)
Lemma boolean_date_passes_validation :
  check_response (response_of [] (PyBool true)) = Ok []
  /\ is_integer (value_at "current_date" (response_of [] (PyBool true))) = false
  /\ validator is_integer (response_of [] (PyBool true)) = inl type_error
  /\ observed (check_response (response_of [] (PyBool true)))
     <> validator is_integer (response_of [] (PyBool true)).
Proof.
  repeat split. intros H. vm_compute in H. discriminate H.
Defined.

Lemma check_response_first_violation_witness :
  observed (check_response (response_of [] (PyStr "1000")))
  = validator is_integer (response_of [] (PyStr "1000"))
  /\ observed (check_response scenario1) = validator is_integer scenario1.
Proof.
  split.
  - apply (proj2 check_response_first_violation (response_of [] (PyStr "1000"))).
    intros b H. vm_compute in H. discriminate H.
  - apply (proj2 check_response_first_violation scenario1).
    intros b H. vm_compute in H. discriminate H.
Defined.

Lemma parse_status_known_status_witness :
  parse_status repr_unused (homework (PyInt 7) (PyStr "reviewing")) =
  Ok ("Изменился статус проверки работы " ++ dq ++ "7" ++ dq
      ++ ". Работа взята на проверку ревьюером.").
Proof.
  apply (proj1 (parse_status_known_status repr_unused)
           [("homework_name", PyInt 7); ("status", PyStr "reviewing")]
           (PyInt 7) "reviewing" "Работа взята на проверку ревьюером.");
    reflexivity.
Defined.



Lemma empty_poll_only_logs_witness :
  iteration repr_unused (answers scenario2 Delivered Delivered) (start_state 5) =
  (Ok tt, start_state 5,
   [HttpGet (PyInt 5); Log DEBUG "Status not updated"; Sleep 600]).
Proof.
  apply (empty_poll_only_logs repr_unused
           (answers scenario2 Delivered Delivered) (start_state 5) scenario2);
    reflexivity.
Defined.

(** C1 as stated fails: scenario 2 validates and has no homeworks, yet
    the cursor stays at 5 and does not become the response's
    [current_date], 1000. *)
Lemma empty_poll_keeps_cursor :
  api_answer (http (answers scenario2 Delivered Delivered)) = Ok scenario2
  /\ check_response scenario2 = Ok []
  /\ value_at "current_date" scenario2 = PyInt 1000
  /\ timestamp (final_state (iteration repr_unused
                               (answers scenario2 Delivered Delivered)
                               (start_state 5))) = PyInt 5
  /\ timestamp (final_state (iteration repr_unused
                               (answers scenario2 Delivered Delivered)
                               (start_state 5))) <> PyInt 1000.
Proof.
  repeat split. intros H. vm_compute in H. discriminate H.
Defined.

Lemma cursor_advance_witness :
  timestamp (final_state (iteration repr_unused
                            (answers scenario1 Delivered Delivered)
                            (start_state 5))) = PyInt 1000
  /\ timestamp (final_state (iteration repr_unused unreachable (start_state 5)))
     = timestamp (start_state 5)
  /\ timestamp (final_state (iteration repr_unused
                               (answers scenario1 (SendRaises (NetworkError "Timed out"))
                                  Delivered)
                               (start_state 5)))
     = timestamp (start_state 5).
Proof.
  split; [ | split].
  - eapply (proj1 (cursor_advance repr_unused
                     (answers scenario1 Delivered Delivered) (start_state 5)
                     (start_state_well_formed 5))).
    + reflexivity.
    + intros H. vm_compute in H. discriminate H.
    + reflexivity.
  - apply (proj1 (proj2 (cursor_advance repr_unused unreachable (start_state 5)
                           (start_state_well_formed 5)))).
    intros m d H. vm_compute in H. discriminate H.
  - apply (proj2 (proj2 (cursor_advance repr_unused
                           (answers scenario1 (SendRaises (NetworkError "Timed out"))
                              Delivered)
                           (start_state 5) (start_state_well_formed 5)))).
    reflexivity.
Defined.

Lemma rejected_send_reports_success_witness :
  outcome (send_message (SendRaises chat_not_found) "hello" (start_state 5)) = Ok true
  /\ outcome (iteration repr_unused
                (answers scenario1 (SendRaises chat_not_found) Delivered)
                (start_state 5)) = Ok tt
  /\ text (previous_message
             (final_state (iteration repr_unused
                             (answers scenario1 (SendRaises chat_not_found) Delivered)
                             (start_state 5))))
     = "Изменился статус проверки работы " ++ dq ++ "hw1" ++ dq
       ++ ". Работа проверена: ревьюеру всё понравилось. Ура!".
Proof.
  split.
  - rewrite (proj1 (rejected_send_reports_success repr_unused)
               chat_not_found "hello" (start_state 5) eq_refl).
    reflexivity.
  - destruct (proj2 (rejected_send_reports_success repr_unused)
                (answers scenario1 (SendRaises chat_not_found) Delivered)
                (start_state 5)
                ("Изменился статус проверки работы " ++ dq ++ "hw1" ++ dq
                 ++ ". Работа проверена: ревьюеру всё понравилось. Ура!")
                (PyInt 1000) chat_not_found
                (start_state_well_formed 5) eq_refl eq_refl eq_refl) as [Hout Hprev].
    split; [exact Hout | rewrite Hprev; reflexivity].
Defined.

(** C9 on the code.  The fetch raises a connectivity error, the
    diagnostic differs from LastMessage and is handed to the Notifier,
    but the bot raises [NetworkError] at line 145, where nothing catches
    it: the diagnostic is not recorded as LastMessage and the exception
    leaves the loop after the sleep, so the second poll is never made. *)
Theorem diagnostic_send_failure_ends_loop :
  outcome (iteration repr_unused
             (mkPoll (RequestException "Connection refused") Delivered
                (SendRaises (NetworkError "Connection refused")))
             (start_state 5))
  = Raise (NetworkError "Connection refused")
  /\ previous_message
       (final_state (iteration repr_unused
                       (mkPoll (RequestException "Connection refused") Delivered
                          (SendRaises (NetworkError "Connection refused")))
                       (start_state 5)))
     = previous_message (start_state 5)
  /\ trace (loop repr_unused
              [mkPoll (RequestException "Connection refused") Delivered
                 (SendRaises (NetworkError "Connection refused"));
               answers scenario1 Delivered Delivered]
              (start_state 5))
     = [HttpGet (PyInt 5);
        Log ERROR (diagnostic (mkExn ConnectionError
                                 ("Error Connection refused occurred when "
                                  ++ "requesting the API endpoint: " ++ ENDPOINT)));
        BotSend (diagnostic (mkExn ConnectionError
                               ("Error Connection refused occurred when "
                                ++ "requesting the API endpoint: " ++ ENDPOINT)));
        Sleep 600].
Proof. repeat split. Qed.

Lemma error_path_witness :
  timestamp (final_state (iteration repr_unused unreachable (start_state 5)))
  = timestamp (start_state 5)
  /\ outcome (iteration repr_unused unreachable (start_state 5)) = Ok tt
  /\ text (previous_message
             (final_state (iteration repr_unused unreachable (start_state 5))))
     = "Сбой в работе программы: Error Connection refused occurred when "
       ++ "requesting the API endpoint: " ++ ENDPOINT.
Proof.
  assert (Hne : diagnostic (mkExn ConnectionError
                              ("Error Connection refused occurred when "
                               ++ "requesting the API endpoint: " ++ ENDPOINT))
                <> text (previous_message (start_state 5))).
  { intros H. vm_compute in H. discriminate H. }
  destruct (error_path repr_unused unreachable (start_state 5)
              (mkExn ConnectionError
                 ("Error Connection refused occurred when "
                  ++ "requesting the API endpoint: " ++ ENDPOINT))
              (start_state_well_formed 5) eq_refl Hne)
    as (Hcursor & _ & Hsent).
  destruct (Hsent eq_refl) as (Hout & Hprev & _).
  split; [exact Hcursor | split; [exact Hout | rewrite Hprev; reflexivity]].
Defined.

(** C10 on the code.  Validation fails on scenario 3 and the send of the
    diagnostic, line 145, raises [NetworkError]: this exception raised
    during a send is not caught by the pass and no diagnostic of it is
    logged; it leaves the loop, unlike the same exception at the send of
    line 135. *)
Theorem handler_send_error_escapes :
  iteration repr_unused
    (answers scenario3 Delivered (SendRaises (NetworkError "Timed out")))
    (start_state 5)
  = (Raise (NetworkError "Timed out"),
     allocated (start_state 5),
     [HttpGet (PyInt 5);
      Log ERROR ("Сбой в работе программы: 'The " ++ dq ++ "homework" ++ dq
                 ++ " key not found'");
      BotSend ("Сбой в работе программы: 'The " ++ dq ++ "homework" ++ dq
               ++ " key not found'");
      Sleep 600]).
Proof. reflexivity. Qed.

Lemma status_send_error_is_reported_witness :
  outcome (send_message (SendRaises (NetworkError "Timed out")) "hello" (start_state 5))
  = Raise (NetworkError "Timed out")
  /\ timestamp (final_state (iteration repr_unused
                               (answers scenario1 (SendRaises (NetworkError "Timed out"))
                                  Delivered)
                               (start_state 5)))
     = timestamp (start_state 5)
  /\ text (previous_message
             (final_state (iteration repr_unused
                             (answers scenario1 (SendRaises (NetworkError "Timed out"))
                                Delivered)
                             (start_state 5))))
     = "Сбой в работе программы: Timed out".
Proof.
  assert (Hne : "Изменился статус проверки работы " ++ dq ++ "hw1" ++ dq
                ++ ". Работа проверена: ревьюеру всё понравилось. Ура!"
                <> text (previous_message (start_state 5))).
  { intros H. vm_compute in H. discriminate H. }
  split.
  - rewrite (proj1 (status_send_error_is_reported repr_unused)
               (NetworkError "Timed out") "hello" (start_state 5) eq_refl).
    reflexivity.
  - destruct (proj2 (status_send_error_is_reported repr_unused)
                (answers scenario1 (SendRaises (NetworkError "Timed out")) Delivered)
                (start_state 5) _ (PyInt 1000) (NetworkError "Timed out")
                (start_state_well_formed 5) eq_refl Hne eq_refl eq_refl)
      as (_ & Hcursor & _).
    split; [exact Hcursor | reflexivity].
Defined.

(** C2 on the code.  Two consecutive polls answer scenario 3; both
    passes derive the same diagnostic, LastMessage holds that very text
    after the first pass, and [bot.send_message] is called with it twice:
    the second f-string is a new object, so [is not] holds. *)
Theorem identical_failure_notified_twice :
  text (previous_message
          (final_state (iteration repr_unused (answers scenario3 Delivered Delivered)
                          (start_state 5))))
  = "Сбой в работе программы: 'The " ++ dq ++ "homework" ++ dq ++ " key not found'"
  /\ sends_of ("Сбой в работе программы: 'The " ++ dq ++ "homework" ++ dq
               ++ " key not found'")
       (trace (loop repr_unused
                 [answers scenario3 Delivered Delivered;
                  answers scenario3 Delivered Delivered]
                 (start_state 5)))
     = 2.
Proof. split; reflexivity. Qed.

(** C3 on the code.  With [PRACTICUM_TOKEN] unset, [check_tokens] is
    false and the critical entry is logged, but nothing is raised: the
    bot is built and the loop runs its first poll. *)
Theorem missing_token_enters_loop :
  check_tokens (mkEnviron None (Some "123:abc") (Some "42")) = false
  /\ main repr_unused
       (mkWorld (mkEnviron None (Some "123:abc") (Some "42")) 5 None
          [answers scenario2 Delivered Delivered])
     = (Ok tt, Some (start_state 5),
        [Log CRITICAL "Required environment variables are missing";
         HttpGet (PyInt 5); Log DEBUG "Status not updated"; Sleep 600]).
Proof. split; reflexivity. Qed.

(** ** Further properties of the code *)

Section Passes.
Variable repr_other : pyval -> string.

(** The result of a pass, case by case. *)
Lemma iteration_explicit :
  forall p st,
    iteration repr_other p st =
    match examine repr_other (http p) with
    | Ok NoHomeworks =>
        (Ok tt, st,
         [HttpGet (timestamp st); Log DEBUG "Status not updated"; Sleep RETRY_PERIOD])
    | Ok (StatusUpdate m d) =>
        if is_not (fresh st m) (previous_message st) then
          match bot_status p with
          | Delivered =>
              (Ok tt, mkState d (fresh st m) (S (next_id st)),
               [HttpGet (timestamp st); BotSend m;
                Log DEBUG "Bot sent message to Telegram"; Sleep RETRY_PERIOD])
          | SendRaises e =>
              if isinstance_BadRequest e then
                (Ok tt, mkState d (fresh st m) (S (next_id st)),
                 [HttpGet (timestamp st); BotSend m;
                  Log ERROR ("Error " ++ dq ++ str_exn e ++ dq
                             ++ " when sending a message to Telegram");
                  Sleep RETRY_PERIOD])
              else
                handled (bot_diag p) e (allocated st) [HttpGet (timestamp st); BotSend m]
          end
        else (Ok tt, allocated st, [HttpGet (timestamp st); Sleep RETRY_PERIOD])
    | Raise e => handled (bot_diag p) e st [HttpGet (timestamp st)]
    end.
Proof.
  intros p st.
  assert (Hhandler : forall e st0 t0,
             (let '(r, st1, t1) :=
                let '(r, st2, t2) := handler p e st0 in (r, st2, (t0 ++ t2)%list) in
              (r, st1, (t1 ++ [Sleep RETRY_PERIOD])%list))
             = handled (bot_diag p) e st0 t0).
  { intros e st0 t0. rewrite handler_run, send_message_run. unfold handled.
    destruct (is_not _ _).
    - destruct (bot_diag p) as [ | e'].
      + rewrite <- app_assoc. reflexivity.
      + destruct (isinstance_BadRequest e'); rewrite <- app_assoc; reflexivity.
    - rewrite <- app_assoc. reflexivity. }
  rewrite iteration_run, try_body_run.
  destruct (examine repr_other (http p)) as [[ | m d] | e].
  - reflexivity.
  - rewrite send_message_run.
    destruct (is_not _ _); [ | reflexivity].
    destruct (bot_status p) as [ | e]; [reflexivity | ].
    destruct (isinstance_BadRequest e); [reflexivity | ].
    apply (Hhandler e (allocated st) [HttpGet (timestamp st); BotSend m]).
  - apply (Hhandler e st [HttpGet (timestamp st)]).
Qed.

Ltac pass_cases p :=
  rewrite iteration_explicit; unfold handled;
  destruct (examine repr_other (http p)) as [[ | ?m ?d] | ?e] eqn:?Hexamine;
  repeat match goal with
         | |- context [if is_not ?a ?b then _ else _] =>
             destruct (is_not a b) eqn:?Hnew
         | |- context [match bot_status p with _ => _ end] =>
             destruct (bot_status p) as [ | ?e] eqn:?Hstatus
         | |- context [match bot_diag p with _ => _ end] =>
             destruct (bot_diag p) as [ | ?e] eqn:?Hdiag
         | |- context [if isinstance_BadRequest ?e then _ else _] =>
             destruct (isinstance_BadRequest e) eqn:?Hclass
         end.

(** X1.  [check_tokens] holds exactly when the three variables are all
    set and none is the empty string. *)
Theorem check_tokens_all_set :
  forall e,
    check_tokens e = true <->
    exists practicum telegram chat,
      e = mkEnviron (Some practicum) (Some telegram) (Some chat)
      /\ practicum <> "" /\ telegram <> "" /\ chat <> "".
Proof.
  intros [pa pb pc]. unfold check_tokens.
  cbn [PRACTICUM_TOKEN TELEGRAM_TOKEN TELEGRAM_CHAT_ID].
  rewrite !andb_true_iff. split.
  - intros [[Ha Hb] Hc].
    destruct pa as [a | ]; [ | discriminate Ha].
    destruct pb as [b | ]; [ | discriminate Hb].
    destruct pc as [c | ]; [ | discriminate Hc].
    cbn in Ha, Hb, Hc. apply negb_true_iff in Ha, Hb, Hc.
    apply String.eqb_neq in Ha, Hb, Hc.
    exists a, b, c. auto.
  - intros (x & y & z & H & Hx & Hy & Hz). injection H as -> -> ->.
    apply String.eqb_neq in Hx, Hy, Hz. cbn. rewrite Hx, Hy, Hz. auto.
Qed.

(** X2.  [get_api_answer] makes one request with the cursor it is given
    and touches no loop variable; it returns a value exactly when the
    status code is 200 and the body decoded to that value; an error of
    [response.json()] on a 200 response comes out as it is; a transport
    failure, and any other status code, raises [ConnectionError]. *)
Theorem get_api_answer_outcomes :
  forall reply cursor st,
    final_state (get_api_answer reply cursor st) = st
    /\ trace (get_api_answer reply cursor st) = [HttpGet cursor]
    /\ (forall v,
           outcome (get_api_answer reply cursor st) = Ok v <->
           reply = HttpResponse 200 (JsonValue v))
    /\ (forall e,
           reply = HttpResponse 200 (JsonRaises e) ->
           outcome (get_api_answer reply cursor st) = Raise e)
    /\ (forall err,
           reply = RequestException err ->
           exists text,
             outcome (get_api_answer reply cursor st)
             = Raise (mkExn ConnectionError text))
    /\ (forall code body,
           reply = HttpResponse code body ->
           code <> 200%Z ->
           exists text,
             outcome (get_api_answer reply cursor st)
             = Raise (mkExn ConnectionError text)).
Proof.
  intros reply cursor st.
  unfold get_api_answer, mbind, emit, lift, api_answer, raise.
  destruct reply as [err | code body]; cbn.
  - repeat split; try discriminate.
    intros err' _. eexists. reflexivity.
  - destruct (Z.eqb_spec code 200) as [-> | Hcode]; cbn.
    + destruct body as [v | e]; cbn; repeat split; try congruence;
        intros c b H Hc; injection H as <- _; contradiction.
    + repeat split; try discriminate.
      * intros H. injection H as H _. contradiction.
      * intros e H. injection H as H _. contradiction.
      * intros c b _ _. eexists. reflexivity.
Qed.

(** X3.  [send_message] calls the bot once with the message, touches no
    loop variable, and either returns [True] or lets out the exception
    of the bot, which then is not a [BadRequest]: it never returns
    [False]. *)
Theorem send_message_true_or_raises :
  forall reply m st,
    final_state (send_message reply m st) = st
    /\ count is_send (trace (send_message reply m st)) = 1
    /\ In (BotSend m) (trace (send_message reply m st))
    /\ (outcome (send_message reply m st) = Ok true
        \/ exists e,
            outcome (send_message reply m st) = Raise e
            /\ reply = SendRaises e /\ isinstance_BadRequest e = false).
Proof.
  intros reply m st. rewrite send_message_run.
  destruct reply as [ | e].
  - cbn. auto.
  - destruct (isinstance_BadRequest e) eqn:He; cbn.
    + auto.
    + repeat split; auto. right. exists e. auto.
Qed.

(** X4.  A successful [check_response] means exactly: the response is a
    dict whose ['homeworks'] is the returned list and whose
    ['current_date'] is present and an [int] (a [bool] included). *)
Theorem check_response_success :
  forall response homeworks,
    check_response response = Ok homeworks <->
    exists items date,
      response = PyDict items
      /\ lookup "homeworks" items = Some (PyList homeworks)
      /\ lookup "current_date" items = Some date
      /\ isinstance_int date = true.
Proof.
  intros response homeworks. split.
  - intros H. destruct response as [ | b | z | x | s | l | items]; try discriminate H.
    unfold check_response in H. cbn in H.
    destruct (lookup "homeworks" items) as [hw | ] eqn:Hhw; cbn in H; [ | discriminate H].
    destruct hw; cbn in H; try discriminate H.
    destruct (lookup "current_date" items) as [date | ] eqn:Hdate; cbn in H;
      [ | discriminate H].
    destruct date; cbn in H; try discriminate H;
      injection H as <-; exists items; eexists;
      (split; [reflexivity | split; [exact Hhw | split; [exact Hdate | reflexivity]]]).
  - intros (items & date & -> & Hhw & Hdate & Hint).
    unfold check_response. cbn. rewrite Hhw. cbn. rewrite Hdate. cbn.
    destruct date; try discriminate Hint; reflexivity.
Qed.

(** X5.  [check_response] reads nothing but the keys ['homeworks'] and
    ['current_date'], and [parse_status] nothing but ['homework_name']
    and ['status']: two dicts that agree on them get the same result. *)
Theorem other_keys_are_ignored :
  (forall items items',
      lookup "homeworks" items = lookup "homeworks" items' ->
      lookup "current_date" items = lookup "current_date" items' ->
      check_response (PyDict items) = check_response (PyDict items'))
  /\ (forall items items',
         lookup "homework_name" items = lookup "homework_name" items' ->
         lookup "status" items = lookup "status" items' ->
         parse_status repr_other (PyDict items) = parse_status repr_other (PyDict items')).
Proof.
  split.
  - intros items items' Hhw Hdate. unfold check_response. cbn.
    rewrite Hhw, Hdate. reflexivity.
  - intros items items' Hname Hstatus.
    rewrite !parse_status_dict, Hname, Hstatus. reflexivity.
Qed.

(** X6.  Only a dict can give a message.  A homework that is a number,
    a boolean or null raises [TypeError] at the first [in] test; a string
    or a list raises [KeyError] when it does not contain
    ['homework_name'] or ['status'] (as a substring, as an element), and
    [AttributeError] at [.get] when it contains both. *)
Theorem parse_status_needs_dict :
  (forall homework message,
      parse_status repr_other homework = Ok message ->
      exists items, homework = PyDict items)
  /\ (forall homework,
         match homework with
         | PyNone | PyBool _ | PyInt _ | PyFloat _ => True
         | _ => False
         end ->
         exists text, parse_status repr_other homework = Raise (mkExn TypeError text))
  /\ (forall homework,
         match homework with PyStr _ | PyList _ => True | _ => False end ->
         contains "homework_name" homework = Ok false
         \/ contains "status" homework = Ok false ->
         exists text, parse_status repr_other homework = Raise (mkExn KeyError text))
  /\ (forall homework,
         match homework with PyStr _ | PyList _ => True | _ => False end ->
         contains "homework_name" homework = Ok true ->
         contains "status" homework = Ok true ->
         exists text,
           parse_status repr_other homework = Raise (mkExn AttributeError text)).
Proof.
  assert (Hshape : forall homework,
             match homework with PyStr _ | PyList _ => True | _ => False end ->
             parse_status repr_other homework =
             match contains "homework_name" homework, contains "status" homework with
             | Ok true, Ok true =>
                 raise AttributeError
                   (sq ++ type_name homework ++ sq ++ " object has no attribute "
                    ++ sq ++ "get" ++ sq)
             | Ok true, _ =>
                 raise KeyError ("The " ++ dq ++ "status" ++ dq ++ " is missing")
             | _, _ =>
                 raise KeyError ("The " ++ dq ++ "homework_name" ++ dq ++ " is missing")
             end).
  { intros homework Hkind. unfold parse_status.
    destruct homework as [ | b | z | x | s | l | items]; try contradiction; cbn.
    - destruct (str_contains "homework_name" s); cbn; [ | reflexivity].
      destruct (str_contains "status" s); reflexivity.
    - destruct (existsb (fun v => eq_str v "homework_name") l); cbn; [ | reflexivity].
      destruct (existsb (fun v => eq_str v "status") l); reflexivity. }
  split; [ | split; [ | split]].
  - intros homework message H.
    destruct homework as [ | b | z | x | s | l | items]; try discriminate H.
    + rewrite (Hshape (PyStr s) I) in H.
      destruct (contains "homework_name" (PyStr s)) as [[ | ] | e];
        destruct (contains "status" (PyStr s)) as [[ | ] | e']; discriminate H.
    + rewrite (Hshape (PyList l) I) in H.
      destruct (contains "homework_name" (PyList l)) as [[ | ] | e];
        destruct (contains "status" (PyList l)) as [[ | ] | e']; discriminate H.
    + exists items. reflexivity.
  - intros homework Hkind.
    destruct homework; try contradiction; eexists; reflexivity.
  - intros homework Hkind Hmiss. rewrite (Hshape homework Hkind).
    destruct Hmiss as [H | H]; rewrite H.
    + eexists. reflexivity.
    + destruct (contains "homework_name" homework) as [[ | ] | e]; eexists; reflexivity.
  - intros homework Hkind Hname Hstatus.
    rewrite (Hshape homework Hkind), Hname, Hstatus. eexists. reflexivity.
Qed.

Lemma examine_inversion :
  forall reply,
    match examine repr_other reply with
    | Ok NoHomeworks =>
        exists response, api_answer reply = Ok response /\ check_response response = Ok []
    | Ok (StatusUpdate m d) =>
        exists response first rest,
          api_answer reply = Ok response
          /\ check_response response = Ok (first :: rest)
          /\ parse_status repr_other first = Ok m
          /\ d = value_at "current_date" response
    | Raise e =>
        api_answer reply = Raise e
        \/ (exists response,
               api_answer reply = Ok response /\ check_response response = Raise e)
        \/ (exists response first rest,
               api_answer reply = Ok response
               /\ check_response response = Ok (first :: rest)
               /\ parse_status repr_other first = Raise e)
    end.
Proof.
  intros reply. unfold examine, bind.
  destruct (api_answer reply) as [response | e]; [ | left; reflexivity].
  destruct (check_response response) as [[ | first rest] | e] eqn:Hcheck.
  - exists response. auto.
  - destruct (parse_status repr_other first) as [m | e] eqn:Hparse.
    + exists response, first, rest. auto.
    + right. right. exists response, first, rest. auto.
  - right. left. exists response. auto.
Qed.

(** X7.  The shape of every pass, whatever the world answers and also
    when an exception leaves it: one request first, carrying the current
    cursor; then at most two calls of the bot; and one sleep of
    [RETRY_PERIOD] seconds last. *)
Theorem pass_shape :
  forall p st,
    exists middle,
      trace (iteration repr_other p st)
      = (HttpGet (timestamp st) :: middle ++ [Sleep RETRY_PERIOD])%list
      /\ count is_request middle = 0
      /\ count is_sleep middle = 0
      /\ count is_send middle <= 2.
Proof.
  intros p st. pass_cases p; cbn [trace snd app];
    match goal with
    | |- exists middle, HttpGet _ :: ?t = _ /\ _ =>
        exists (removelast t); cbn; repeat split; lia
    end.
Qed.


(** X9.  After a pass, LastMessage is the object it was or holds a text
    that was handed to the bot during the pass. *)
Theorem last_message_was_sent :
  forall p st,
    previous_message (final_state (iteration repr_other p st)) = previous_message st
    \/ In (BotSend (text (previous_message (final_state (iteration repr_other p st)))))
         (trace (iteration repr_other p st)).
Proof.
  intros p st. pass_cases p; cbn; auto 10.
Qed.

(** X10.  A pass leaves the cursor as it was, or it met a response that
    validated, extracted a message from the first homework, handed that
    message to the bot, and made it LastMessage together with setting
    the cursor to the response's ['current_date']. *)
Theorem cursor_moves_with_last_message :
  forall p st,
    timestamp (final_state (iteration repr_other p st)) = timestamp st
    \/ exists response first rest m,
        api_answer (http p) = Ok response
        /\ check_response response = Ok (first :: rest)
        /\ parse_status repr_other first = Ok m
        /\ send_returns (bot_status p) = true
        /\ In (BotSend m) (trace (iteration repr_other p st))
        /\ timestamp (final_state (iteration repr_other p st))
           = value_at "current_date" response
        /\ text (previous_message (final_state (iteration repr_other p st))) = m.
Proof.
  intros p st.
  pose proof (examine_inversion (http p)) as Hinv.
  rewrite iteration_explicit. unfold handled.
  destruct (examine repr_other (http p)) as [[ | m d] | e].
  - left. reflexivity.
  - destruct Hinv as (response & first & rest & Hfetch & Hcheck & Hparse & ->).
    destruct (is_not _ _); [ | left; reflexivity].
    destruct (bot_status p) as [ | e] eqn:Hstatus.
    + right. exists response, first, rest, m. cbn. auto 10.
    + destruct (isinstance_BadRequest e) eqn:Hclass.
      * right. exists response, first, rest, m. cbn. auto 10.
      * left. destruct (is_not _ _); [ | reflexivity].
        destruct (bot_diag p) as [ | e']; [reflexivity | ].
        destruct (isinstance_BadRequest e'); reflexivity.
  - left. destruct (is_not _ _); [ | reflexivity].
    destruct (bot_diag p) as [ | e']; [reflexivity | ].
    destruct (isinstance_BadRequest e'); reflexivity.
Qed.

(** X11.  An exception can leave a pass only from the send of a
    diagnostic: it is the exception the bot raised there and is not a
    [BadRequest]; the cursor and LastMessage are then what they were,
    and the loop makes no further pass. *)
Theorem only_diagnostic_send_escapes :
  forall p st e,
    outcome (iteration repr_other p st) = Raise e ->
    bot_diag p = SendRaises e
    /\ isinstance_BadRequest e = false
    /\ timestamp (final_state (iteration repr_other p st)) = timestamp st
    /\ previous_message (final_state (iteration repr_other p st)) = previous_message st
    /\ forall rest,
        loop repr_other (p :: rest) st = iteration repr_other p st.
Proof.
  intros p st e H.
  assert (Hloop : forall rest, loop repr_other (p :: rest) st = iteration repr_other p st).
  { intros rest. cbn [loop]. unfold mbind.
    destruct (iteration repr_other p st) as [[[u | e0] st1] t1];
      [discriminate H | reflexivity]. }
  revert H Hloop. pass_cases p; cbn; intros H Hloop; try discriminate H;
    injection H as <-; auto.
Qed.

Lemma validated_date_is_int :
  forall response homeworks,
    check_response response = Ok homeworks ->
    isinstance_int (value_at "current_date" response) = true.
Proof.
  intros response homeworks H.
  destruct response as [ | b | z | x | s | l | items]; try discriminate H.
  unfold check_response in H. cbn in H. cbn.
  destruct (lookup "homeworks" items) as [hw | ]; cbn in H; [ | discriminate H].
  destruct hw; cbn in H; try discriminate H.
  destruct (lookup "current_date" items) as [date | ]; cbn in H; [ | discriminate H].
  destruct date; cbn in H; try discriminate H; reflexivity.
Qed.

Lemma iteration_keeps_int :
  forall p st,
    isinstance_int (timestamp st) = true ->
    isinstance_int (timestamp (final_state (iteration repr_other p st))) = true.
Proof.
  intros p st Hint.
  pose proof (examine_inversion (http p)) as Hinv.
  revert Hinv. pass_cases p; cbn; intros Hinv; try exact Hint;
    destruct Hinv as (response & first & rest & _ & Hcheck & _ & ->);
    exact (validated_date_is_int _ _ Hcheck).
Qed.

Lemma loop_keeps_int :
  forall ps st,
    isinstance_int (timestamp st) = true ->
    isinstance_int (timestamp (final_state (loop repr_other ps st))) = true.
Proof.
  induction ps as [ | p rest IH]; intros st Hint.
  - exact Hint.
  - cbn [loop]. unfold mbind.
    pose proof (iteration_keeps_int p st Hint) as H1.
    destruct (iteration repr_other p st) as [[[u | e] st1] t1]; cbn in H1.
    + specialize (IH st1 H1).
      destruct (loop repr_other rest st1) as [[r st2] t2]. exact IH.
    + exact H1.
Qed.

(** X12.  The cursor is an [int] all along: it starts as [int(time.time())]
    and is only ever replaced by a ['current_date'] that passed the
    [isinstance(..., int)] check of [check_response], whatever the world
    answers and however many passes are made. *)
Theorem cursor_is_always_int :
  forall ps now,
    isinstance_int (timestamp (final_state (loop repr_other ps (start_state now)))) = true.
Proof.
  intros ps now. apply loop_keeps_int. reflexivity.
Qed.

Lemma pass_counts :
  forall p st,
    count is_request (trace (iteration repr_other p st)) = 1
    /\ count is_sleep (trace (iteration repr_other p st)) = 1.
Proof.
  intros p st. pass_cases p; split; reflexivity.
Qed.

Lemma pass_returns :
  forall p st,
    send_returns (bot_diag p) = true ->
    outcome (iteration repr_other p st) = Ok tt.
Proof.
  intros p st. unfold send_returns. pass_cases p; cbn; intros H;
    first [reflexivity | discriminate H].
Qed.

Lemma count_app :
  forall sort t1 t2, count sort (t1 ++ t2) = count sort t1 + count sort t2.
Proof.
  intros sort t1 t2. unfold count. rewrite filter_app, length_app. reflexivity.
Qed.

(** X13.  As long as every send of a diagnostic returns (delivered, or
    rejected with [BadRequest]), nothing stops the loop: whatever the
    endpoint answers and whatever happens to the sends of status
    messages, every pass is made, each with one request and one sleep. *)
Theorem loop_keeps_polling :
  forall ps st,
    forallb (fun p => send_returns (bot_diag p)) ps = true ->
    outcome (loop repr_other ps st) = Ok tt
    /\ count is_request (trace (loop repr_other ps st)) = length ps
    /\ count is_sleep (trace (loop repr_other ps st)) = length ps.
Proof.
  induction ps as [ | p rest IH]; intros st Hall.
  - repeat split.
  - cbn [forallb] in Hall. apply andb_true_iff in Hall. destruct Hall as [Hp Hrest].
    pose proof (pass_returns p st Hp) as Hout.
    pose proof (pass_counts p st) as [Hreq Hsleep].
    cbn [loop]. unfold mbind.
    destruct (iteration repr_other p st) as [[[u | e] st1] t1];
      [ | discriminate Hout].
    cbn [trace snd] in Hreq, Hsleep.
    specialize (IH st1 Hrest). destruct IH as (IHout & IHreq & IHsleep).
    destruct (loop repr_other rest st1) as [[r st2] t2].
    cbn [outcome trace fst snd] in *.
    rewrite !count_app, Hreq, Hsleep, IHreq, IHsleep.
    repeat split; [exact IHout | ..]; reflexivity.
Qed.

(** X14.  Only [homeworks[0]] counts: two polls whose validated
    responses have the same first homework and the same ['current_date']
    give the same pass, whatever follows the first homework in the
    lists. *)
Theorem only_first_homework_counts :
  forall p p' st response response' first rest rest',
    api_answer (http p) = Ok response ->
    api_answer (http p') = Ok response' ->
    check_response response = Ok (first :: rest) ->
    check_response response' = Ok (first :: rest') ->
    value_at "current_date" response = value_at "current_date" response' ->
    bot_status p = bot_status p' ->
    bot_diag p = bot_diag p' ->
    iteration repr_other p st = iteration repr_other p' st.
Proof.
  intros p p' st response response' first rest rest'
         Hfetch Hfetch' Hcheck Hcheck' Hdate Hstatus Hdiag.
  assert (Hex : examine repr_other (http p) = examine repr_other (http p')).
  { unfold examine, bind. rewrite Hfetch, Hfetch', Hcheck, Hcheck', Hdate. reflexivity. }
  rewrite !iteration_explicit, Hex, Hstatus, Hdiag. reflexivity.
Qed.

End Passes.

(** ** The further properties on concrete inputs *)

Lemma check_tokens_all_set_witness :
  check_tokens (mkEnviron (Some "y0_token") (Some "123:abc") (Some "42")) = true.
Proof.
  apply (proj2 (check_tokens_all_set
                  (mkEnviron (Some "y0_token") (Some "123:abc") (Some "42")))).
  exists "y0_token", "123:abc", "42".
  split; [reflexivity | repeat split; discriminate].
Defined.

Lemma get_api_answer_outcomes_witness :
  outcome (get_api_answer (HttpResponse 200 (JsonValue scenario1)) (PyInt 5)
             (start_state 5)) = Ok scenario1
  /\ outcome (get_api_answer
                (HttpResponse 200
                   (JsonRaises (mkExn (LibraryError "requests.exceptions.JSONDecodeError")
                                  "Expecting value: line 1 column 1 (char 0)")))
                (PyInt 5) (start_state 5))
     = Raise (mkExn (LibraryError "requests.exceptions.JSONDecodeError")
                "Expecting value: line 1 column 1 (char 0)")
  /\ (exists text,
         outcome (get_api_answer (RequestException "Connection refused") (PyInt 5)
                    (start_state 5))
         = Raise (mkExn ConnectionError text))
  /\ (exists text,
         outcome (get_api_answer (HttpResponse 503 (JsonValue scenario1)) (PyInt 5)
                    (start_state 5))
         = Raise (mkExn ConnectionError text)).
Proof.
  split; [ | split; [ | split]].
  - apply (proj2 (proj1 (proj2 (proj2 (get_api_answer_outcomes
                                         (HttpResponse 200 (JsonValue scenario1))
                                         (PyInt 5) (start_state 5))))
                   scenario1)).
    reflexivity.
  - apply (proj1 (proj2 (proj2 (proj2 (get_api_answer_outcomes
                                         (HttpResponse 200 (JsonRaises _))
                                         (PyInt 5) (start_state 5)))))).
    reflexivity.
  - apply (proj1 (proj2 (proj2 (proj2 (proj2 (get_api_answer_outcomes
                                                (RequestException "Connection refused")
                                                (PyInt 5) (start_state 5))))))
             "Connection refused").
    reflexivity.
  - apply (proj2 (proj2 (proj2 (proj2 (proj2 (get_api_answer_outcomes
                                                (HttpResponse 503 (JsonValue scenario1))
                                                (PyInt 5) (start_state 5))))))
             503%Z (JsonValue scenario1)).
    + reflexivity.
    + discriminate.
Defined.

Lemma check_response_success_witness :
  check_response (response_of [PyStr "hw"] (PyBool true)) = Ok [PyStr "hw"].
Proof.
  apply (proj2 (check_response_success (response_of [PyStr "hw"] (PyBool true))
                  [PyStr "hw"])).
  exists [("homeworks", PyList [PyStr "hw"]); ("current_date", PyBool true)],
         (PyBool true).
  repeat split.
Defined.

Lemma other_keys_are_ignored_witness :
  check_response (PyDict [("code", PyInt 7); ("current_date", PyInt 1000);
                          ("homeworks", PyList [])])
  = check_response scenario2
  /\ parse_status repr_unused
       (PyDict [("id", PyInt 124); ("status", PyStr "rejected");
                ("homework_name", PyStr "hw1"); ("reviewer_comment", PyStr "ok")])
     = parse_status repr_unused (homework (PyStr "hw1") (PyStr "rejected")).
Proof.
  split.
  - apply (proj1 (other_keys_are_ignored repr_unused)); reflexivity.
  - apply (proj2 (other_keys_are_ignored repr_unused)); reflexivity.
Defined.

Lemma parse_status_needs_dict_witness :
  (exists items, homework (PyStr "hw1") (PyStr "approved") = PyDict items)
  /\ (exists text, parse_status repr_unused (PyInt 3) = Raise (mkExn TypeError text))
  /\ (exists text,
         parse_status repr_unused (PyList [PyStr "homework_name"])
         = Raise (mkExn KeyError text))
  /\ (exists text,
         parse_status repr_unused (PyStr "homework_name, status")
         = Raise (mkExn AttributeError text)).
Proof.
  split; [ | split; [ | split]].
  - apply (proj1 (parse_status_needs_dict repr_unused)
             (homework (PyStr "hw1") (PyStr "approved"))
             ("Изменился статус проверки работы " ++ dq ++ "hw1" ++ dq
              ++ ". Работа проверена: ревьюеру всё понравилось. Ура!")).
    reflexivity.
  - apply (proj1 (proj2 (parse_status_needs_dict repr_unused)) (PyInt 3)).
    exact I.
  - apply (proj1 (proj2 (proj2 (parse_status_needs_dict repr_unused)))
             (PyList [PyStr "homework_name"])).
    + exact I.
    + right. reflexivity.
  - apply (proj2 (proj2 (proj2 (parse_status_needs_dict repr_unused)))
             (PyStr "homework_name, status")).
    + exact I.
    + reflexivity.
    + reflexivity.
Defined.


Lemma only_diagnostic_send_escapes_witness :
  bot_diag (answers scenario3 Delivered (SendRaises (NetworkError "Timed out")))
  = SendRaises (NetworkError "Timed out")
  /\ isinstance_BadRequest (NetworkError "Timed out") = false
  /\ timestamp (final_state
                  (iteration repr_unused
                     (answers scenario3 Delivered (SendRaises (NetworkError "Timed out")))
                     (start_state 5)))
     = timestamp (start_state 5).
Proof.
  destruct (only_diagnostic_send_escapes repr_unused
              (answers scenario3 Delivered (SendRaises (NetworkError "Timed out")))
              (start_state 5) (NetworkError "Timed out") eq_refl)
    as (Hdiag & Hclass & Hcursor & _).
  split; [exact Hdiag | split; [exact Hclass | exact Hcursor]].
Defined.

Lemma loop_keeps_polling_witness :
  outcome (loop repr_unused
             [unreachable;
              answers scenario1 (SendRaises (NetworkError "Timed out")) Delivered;
              answers scenario3 Delivered (SendRaises chat_not_found)]
             (start_state 5)) = Ok tt
  /\ count is_request
       (trace (loop repr_unused
                 [unreachable;
                  answers scenario1 (SendRaises (NetworkError "Timed out")) Delivered;
                  answers scenario3 Delivered (SendRaises chat_not_found)]
                 (start_state 5))) = 3
  /\ count is_sleep
       (trace (loop repr_unused
                 [unreachable;
                  answers scenario1 (SendRaises (NetworkError "Timed out")) Delivered;
                  answers scenario3 Delivered (SendRaises chat_not_found)]
                 (start_state 5))) = 3.
Proof.
  apply (loop_keeps_polling repr_unused
           [unreachable;
            answers scenario1 (SendRaises (NetworkError "Timed out")) Delivered;
            answers scenario3 Delivered (SendRaises chat_not_found)]
           (start_state 5)).
  reflexivity.
Defined.

Lemma only_first_homework_counts_witness :
  iteration repr_unused (answers scenario1 Delivered Delivered) (start_state 5)
  = iteration repr_unused
      (answers (response_of [homework (PyStr "hw1") (PyStr "approved");
                             homework (PyStr "hw0") (PyStr "rejected");
                             PyInt 3]
                  (PyInt 1000))
         Delivered Delivered)
      (start_state 5).
Proof.
  apply (only_first_homework_counts repr_unused
           (answers scenario1 Delivered Delivered)
           (answers (response_of [homework (PyStr "hw1") (PyStr "approved");
                                  homework (PyStr "hw0") (PyStr "rejected");
                                  PyInt 3]
                       (PyInt 1000))
              Delivered Delivered)
           (start_state 5)
           scenario1
           (response_of [homework (PyStr "hw1") (PyStr "approved");
                         homework (PyStr "hw0") (PyStr "rejected");
                         PyInt 3]
              (PyInt 1000))
           (homework (PyStr "hw1") (PyStr "approved"))
           []
           [homework (PyStr "hw0") (PyStr "rejected"); PyInt 3]);
    reflexivity.
Defined.

